(** * EventSystem: the observer registry of [EventSystem.h]

    A shallow embedding of [EventSystem::Subject] (Attach, Detach, Notify
    over the private static [myObservers]) and the properties of its
    specification.

    - [std::unordered_map<std::type_index, std::vector<Observer*>>] is a
      [gmap type_index (list Observer)]; the raw pointer [myObservers] that
      is either [nullptr] or owns such a map is an [option] of it.
    - An [Observer*] is a value of a type with decidable equality (pointers
      are compared by address, the pointee is never inspected by Subject).
    - A vector iterator is the index of its element, [end()] is the length.
    - [printf] under [#ifdef _DEBUG] and the virtual call
      [observer->OnNotify(anEvent)] are the two observable actions; every
      operation returns the state it leaves and the actions it performed,
      in order. *)

From stdpp Require Import gmap list.

Module EventSystem.

(** The four [#ifdef _DEBUG] blocks, one constructor each. *)
Inductive Diagnostic : Type :=
  | AlreadyAttached      (* Attach, lines 72-77 *)
  | NullptrInDetach      (* Detach, lines 90-92 *)
  | CouldNotDetach       (* Detach, lines 107-113 *)
  | NullptrInNotify.     (* Notify, lines 136-138 *)

Section Subject.

(** [std::type_index], keys of the unordered_map. *)
Context {type_index : Type} `{Countable type_index}.
(** [Observer*]. *)
Context {Observer : Type} `{EqDecision Observer}.
(** Objects of classes derived from [Event]; [typeid] is the dynamic type
    that [typeid(anEvent)] yields for a polymorphic class. *)
Context {Event : Type} (typeid : Event → type_index).
(** Everything else the process owns (what the observers' callbacks
    work on). *)
Context {World : Type}.

(** Whether the translation unit is compiled with [_DEBUG] defined. *)
Variable _DEBUG : bool.

Record State : Type := mkState {
  myObservers : option (gmap type_index (list Observer));
  world : World
}.

Definition set_myObservers
    (p : option (gmap type_index (list Observer))) (s : State) : State :=
  {| myObservers := p; world := world s |}.

(** The pure virtual [Observer::OnNotify(Event&)]: user code, which runs
    with the whole process state at hand. *)
Variable OnNotify : Observer → Event → State → State.

Inductive Output : Type :=
  | Printf (d : Diagnostic)
  | Call (observer : Observer) (anEvent : Event).

Definition debug_printf (d : Diagnostic) : list Output :=
  if _DEBUG then [Printf d] else [].

(** ** The standard algorithms used on the vectors *)

(** [std::find(v.begin(), v.end(), x)]: index of the first element equal
    to [x], the length when there is none. *)
Fixpoint std_find (v : list Observer) (x : Observer) : nat :=
  match v with
  | [] => 0
  | y :: v' => if decide (y = x) then 0 else S (std_find v' x)
  end.

(** The loop of [std::remove] after the first match: [rest] are the
    elements still to be read (they lie behind [first], so no write has
    touched them), [first] is the next slot to fill. Assigning a raw
    pointer leaves the source slot as it was. *)
Fixpoint remove_loop (x : Observer) (rest : list Observer) (first : nat)
    (v : list Observer) : list Observer * nat :=
  match rest with
  | [] => (v, first)
  | y :: rest' =>
      if decide (y = x) then remove_loop x rest' first v
      else remove_loop x rest' (S first) (<[first := y]> v)
  end.

(** [std::remove(v.begin(), v.end(), x)]: the vector after the shifting
    (its size is unchanged) and the returned iterator. *)
Definition std_remove (v : list Observer) (x : Observer)
    : list Observer * nat :=
  let first := std_find v x in
  if decide (first = length v) then (v, first)
  else remove_loop x (drop (S first) v) first v.

(** [v.erase(it)] with a single iterator: removes the one element at
    [it]. *)
Definition erase (v : list Observer) (it : nat) : list Observer :=
  delete it v.

(** [operator[]] of the map, applied to [key]: inserts an empty vector
    when the key is absent and yields the vector stored under the key. *)
Definition subscript (m : gmap type_index (list Observer))
    (key : type_index) : gmap type_index (list Observer) * list Observer :=
  match m !! key with
  | Some v => (m, v)
  | None => (<[key := []]> m, [])
  end.

(** ** Subject *)

(** [Subject::Attach<EventClass>(anObserver)], lines 54-82. The local
    [observers] is a reference into the map: a write to it is a write
    to the entry. *)
Definition Attach (EventClass : type_index) (anObserver : Observer)
    (s : State) : State * list Output :=
  let m := match myObservers s with
           | None => ∅
           | Some m => m
           end in
  let '(m, observers) := subscript m EventClass in
  let it := std_find observers anObserver in
  if decide (it ≠ length observers)
  then (set_myObservers (Some m) s, debug_printf AlreadyAttached)
  else (set_myObservers
          (Some (<[EventClass := observers ++ [anObserver]]> m)) s, []).

(** [Subject::Detach<EventClass>(anObserver)], lines 85-128. *)
Definition Detach (EventClass : type_index) (anObserver : Observer)
    (s : State) : State * list Output :=
  match myObservers s with
  | None => (s, debug_printf NullptrInDetach)
  | Some m =>
      let '(m, observers) := subscript m EventClass in
      let '(observers, it) := std_remove observers anObserver in
      let '(observers, out) :=
        if decide (it ≠ length observers)
        then (erase observers it, [])
        else (observers, debug_printf CouldNotDetach) in
      let m := <[EventClass := observers]> m in
      let m := if decide (observers = []) then delete EventClass m
               else m in
      if decide (m = ∅)
      then (set_myObservers None s, out)
      else (set_myObservers (Some m) s, out)
  end.

(** The range-for of Notify, lines 151-154, over the vector as it is when
    the loop starts. The C++ loop holds iterators into the vector stored
    in the map; a callback that attaches to or detaches from the notified
    category changes that vector under the loop and invalidates them, and
    what the loop then reads is not what this function says. The two agree
    when no callback changes the registry, and every statement below about
    the callbacks that Notify invokes is made under that premise. *)
Fixpoint for_each (observers : list Observer) (anEvent : Event)
    (s : State) : State * list Output :=
  match observers with
  | [] => (s, [])
  | observer :: rest =>
      let '(s', out) := for_each rest anEvent (OnNotify observer anEvent s) in
      (s', Call observer anEvent :: out)
  end.

(** [Subject::Notify(anEvent)], lines 131-162. The loop runs over the
    vector found by [find], see [for_each] for the executions on which
    this is the code's loop. *)
Definition Notify (anEvent : Event) (s : State) : State * list Output :=
  match myObservers s with
  | None => (s, debug_printf NullptrInNotify)
  | Some m =>
      match m !! typeid anEvent with
      | Some observers => for_each observers anEvent s
      | None => (s, [])
      end
  end.

(** ** Views of the state used in the statements *)

(** The subscriber list of a category: the vector under the key, empty
    when the key or the whole map is absent. *)
Definition subscribers (s : State) (ty : type_index) : list Observer :=
  match myObservers s with
  | None => []
  | Some m => default [] (m !! ty)
  end.

(** The observers whose callback an operation invoked, in order. *)
Fixpoint calls (out : list Output) : list Observer :=
  match out with
  | [] => []
  | Printf _ :: out' => calls out'
  | Call observer _ :: out' => observer :: calls out'
  end.

(** How many times an operation invoked the callback of [o]. *)
Definition deliveries (o : Observer) (out : list Output) : nat :=
  length (filter (λ o', o' = o) (calls out)).

(** The lines an operation printed, in order. *)
Fixpoint printed (out : list Output) : list Diagnostic :=
  match out with
  | [] => []
  | Printf d :: out' => d :: printed out'
  | Call _ _ :: out' => printed out'
  end.

(** The structural invariant of the registry: [nullptr], or a map with
    at least one key whose vectors are all non-empty and free of
    repetitions. *)
Definition registry_ok (p : option (gmap type_index (list Observer)))
    : Prop :=
  match p with
  | None => True
  | Some m => m ≠ ∅ ∧ map_Forall (λ _ v, v ≠ [] ∧ NoDup v) m
  end.

#[global] Instance registry_ok_dec p : Decision (registry_ok p).
Proof. destruct p; apply _. Defined.

(** Programs over the three operations. *)
Inductive Operation : Type :=
  | OpAttach (EventClass : type_index) (anObserver : Observer)
  | OpDetach (EventClass : type_index) (anObserver : Observer)
  | OpNotify (anEvent : Event).

Definition step (op : Operation) (s : State) : State * list Output :=
  match op with
  | OpAttach ty o => Attach ty o s
  | OpDetach ty o => Detach ty o s
  | OpNotify ev => Notify ev s
  end.

Fixpoint run (ops : list Operation) (s : State) : State * list Output :=
  match ops with
  | [] => (s, [])
  | op :: ops' =>
      let '(s1, out1) := step op s in
      let '(s2, out2) := run ops' s1 in
      (s2, out1 ++ out2)
  end.

(** The state of a process before any call: [myObservers] is
    [nullptr]. *)
Definition initial (w : World) : State :=
  {| myObservers := None; world := w |}.

Definition reachable (s : State) : Prop :=
  ∃ w ops, (run ops (initial w)).1 = s.

(** A handle subscribed to category [ty] and to no other. *)
Definition subscribed_only (s : State) (o : Observer) (ty : type_index)
    : Prop :=
  o ∈ subscribers s ty ∧ ∀ ty', ty' ≠ ty → o ∉ subscribers s ty'.

(** What [std::remove] followed by the guarded [erase] leaves of a
    vector. *)
Definition detached (v : list Observer) (x : Observer) : list Observer :=
  let kept := filter (λ y, y ≠ x) v in
  if decide (x ∈ v) then kept ++ drop (S (length kept)) v else v.

(** What Detach leaves of a map: the vector of the category without
    the handle, the key erased when that vector is empty, and [nullptr]
    when no key is left. *)
Definition detach_map (m : gmap type_index (list Observer))
    (ty : type_index) (x : Observer)
    : option (gmap type_index (list Observer)) :=
  let v := detached (default [] (m !! ty)) x in
  let m' := if decide (v = []) then delete ty m else <[ty := v]> m in
  if decide (m' = ∅) then None else Some m'.

(** ** The standard algorithms *)

Lemma std_find_le v x : std_find v x ≤ length v.
Proof. induction v as [|y v IH]; simpl; [lia|]. case_decide; lia. Qed.

Lemma std_find_end v x : std_find v x = length v ↔ x ∉ v.
Proof.
  induction v as [|y v IH]; simpl.
  - split; [intros _; apply not_elem_of_nil | done].
  - case_decide as Hy.
    + subst y. split; [lia | intros Hx; destruct Hx; left].
    + rewrite not_elem_of_cons. split.
      * intros Hf. split; [congruence | apply IH; lia].
      * intros [_ Hx]. f_equal. by apply IH.
Qed.

Lemma std_find_split v x :
  x ∈ v →
  v = take (std_find v x) v ++ x :: drop (S (std_find v x)) v
  ∧ x ∉ take (std_find v x) v.
Proof.
  induction v as [|y v IH]; simpl.
  - intros Hx. by apply elem_of_nil in Hx.
  - intros Hx. case_decide as Hy.
    + subst y. simpl. rewrite drop_0. split; [done | apply not_elem_of_nil].
    + apply elem_of_cons in Hx as [Hx | Hx]; [congruence|].
      destruct (IH Hx) as [Hv Hn]. simpl. split.
      * f_equal. exact Hv.
      * rewrite not_elem_of_cons. split; [congruence | done].
Qed.

Lemma filter_ne_notin (v : list Observer) x :
  x ∉ v → filter (λ y, y ≠ x) v = v.
Proof.
  induction v as [|y v IH]; [done|].
  rewrite not_elem_of_cons. intros [Hy Hx].
  rewrite filter_cons_True by congruence. f_equal. by apply IH.
Qed.

Lemma filter_eq_notin (v : list Observer) x :
  x ∉ v → filter (λ y, y = x) v = [].
Proof.
  induction v as [|y v IH]; [done|].
  rewrite not_elem_of_cons. intros [Hy Hx].
  rewrite filter_cons_False by congruence. by apply IH.
Qed.

Lemma remove_loop_spec x rest : ∀ first v,
  first + length rest ≤ length v →
  first < length v ∨ rest = [] →
  remove_loop x rest first v =
    (take first v ++ filter (λ y, y ≠ x) rest
       ++ drop (first + length (filter (λ y, y ≠ x) rest)) v,
     first + length (filter (λ y, y ≠ x) rest)).
Proof.
  induction rest as [|y rest IH]; intros first v Hlen Hlt; simpl.
  - rewrite Nat.add_0_r, take_drop. done.
  - destruct Hlt as [Hlt | ?]; [|done]. simpl in Hlen. case_decide as Hy.
    + subst y. rewrite filter_cons_False by (intros Hn; by apply Hn).
      apply IH; [lia | by left].
    + rewrite filter_cons_True by done. simpl.
      rewrite IH.
      * rewrite (take_S_r (<[first:=y]> v) first y)
          by (by apply list_lookup_insert_eq).
        rewrite take_insert_ge by lia.
        rewrite drop_insert_lt by lia.
        rewrite <- !app_assoc, Nat.add_succ_r. done.
      * rewrite length_insert. lia.
      * rewrite length_insert.
        destruct rest; [by right | left; simpl in Hlen; lia].
Qed.

Lemma std_remove_spec v x :
  std_remove v x =
    (filter (λ y, y ≠ x) v ++ drop (length (filter (λ y, y ≠ x) v)) v,
     length (filter (λ y, y ≠ x) v)).
Proof.
  unfold std_remove. case_decide as Hend.
  - apply std_find_end in Hend as Hx.
    rewrite (filter_ne_notin v x Hx), drop_all, app_nil_r. by rewrite Hend.
  - assert (Hx : x ∈ v).
    { destruct (decide (x ∈ v)) as [|Hn]; [done|].
      by apply std_find_end in Hn. }
    pose proof (std_find_le v x) as Hle.
    destruct (std_find_split v x Hx) as [Hv Hn].
    set (f := std_find v x) in *.
    assert (Hf : length (take f v) = f) by (rewrite length_take; lia).
    rewrite remove_loop_spec.
    + assert (Hk : filter (λ y, y ≠ x) v
               = take f v ++ filter (λ y, y ≠ x) (drop (S f) v)).
      { rewrite Hv at 1. rewrite filter_app, filter_cons_False
          by (intros Hne; by apply Hne).
        by rewrite (filter_ne_notin _ x Hn). }
      rewrite Hk, length_app, Hf, <- app_assoc. done.
    + rewrite length_drop. lia.
    + left. lia.
Qed.

Lemma length_kept_lt (v : list Observer) x :
  x ∈ v → length (filter (λ y, y ≠ x) v) < length v.
Proof. intros Hx. apply (length_filter_lt _ _ x); [done|]. by intros Hn. Qed.

(** [std::remove] and the guarded [erase] on a vector that holds [x]. *)
Lemma remove_erase_in v x :
  x ∈ v →
  (std_remove v x).2 ≠ length (std_remove v x).1
  ∧ erase (std_remove v x).1 (std_remove v x).2 = detached v x.
Proof.
  intros Hx. rewrite std_remove_spec. simpl.
  pose proof (length_kept_lt v x Hx) as Hlt.
  set (kept := filter (λ y, y ≠ x) v) in *.
  rewrite length_app, length_drop. split; [lia|].
  unfold erase, detached. fold kept. rewrite decide_True by done.
  rewrite delete_take_drop, take_app_length, drop_app_ge by lia.
  rewrite drop_drop. do 2 f_equal. lia.
Qed.

(** [std::remove] on a vector that does not hold [x]. *)
Lemma remove_erase_notin v x :
  x ∉ v → std_remove v x = (v, length v) ∧ detached v x = v.
Proof.
  intros Hx. rewrite std_remove_spec, (filter_ne_notin v x Hx).
  rewrite drop_all, app_nil_r. split; [done|].
  unfold detached. by rewrite decide_False.
Qed.

(** When [x] occurs once, what is left is the vector without [x]. *)
Lemma detached_once v1 v2 x :
  x ∉ v1 → x ∉ v2 → detached (v1 ++ x :: v2) x = v1 ++ v2.
Proof.
  intros H1 H2. unfold detached.
  rewrite decide_True by (apply elem_of_app; right; left).
  rewrite filter_app, filter_cons_False by (intros Hn; by apply Hn).
  rewrite !filter_ne_notin by done.
  rewrite drop_ge; [by rewrite app_nil_r|].
  rewrite !length_app. simpl. lia.
Qed.

Lemma detached_NoDup v x :
  NoDup v → x ∈ v → detached v x = filter (λ y, y ≠ x) v.
Proof.
  intros Hnd Hx. apply list_elem_of_split in Hx as (v1 & v2 & ->).
  apply NoDup_app in Hnd as (_ & H1 & Hnd2).
  apply NoDup_cons in Hnd2 as [H2 _].
  assert (x ∉ v1) by (intros Hv; apply (H1 x Hv); left).
  rewrite detached_once by done.
  rewrite filter_app, filter_cons_False by (intros Hn; by apply Hn).
  by rewrite !filter_ne_notin.
Qed.

(** ** The three operations, case by case *)

Lemma State_eta (s : State) : set_myObservers (myObservers s) s = s.
Proof. by destruct s. Qed.

Lemma subscribers_set p s ty :
  subscribers (set_myObservers p s) ty =
    match p with None => [] | Some m => default [] (m !! ty) end.
Proof. done. Qed.

Lemma Attach_present ty x s :
  x ∈ subscribers s ty → Attach ty x s = (s, debug_printf AlreadyAttached).
Proof.
  unfold subscribers, Attach, subscript. intros Hx.
  destruct (myObservers s) as [m|] eqn:Hm;
    [|by apply elem_of_nil in Hx].
  destruct (m !! ty) as [v|] eqn:Hv; simpl in Hx;
    [|by apply elem_of_nil in Hx].
  rewrite decide_True by (by rewrite std_find_end; intros Hn).
  by rewrite <- Hm, State_eta.
Qed.

Lemma Attach_absent ty x s :
  x ∉ subscribers s ty →
  Attach ty x s =
    (set_myObservers
       (Some (<[ty := subscribers s ty ++ [x]]>
                (default ∅ (myObservers s)))) s, []).
Proof.
  unfold subscribers, Attach, subscript. intros Hx.
  destruct (myObservers s) as [m|] eqn:Hm; simpl.
  - destruct (m !! ty) as [v|] eqn:Hv; simpl in *.
    + rewrite decide_False; [done|].
      intros Hn. apply Hn. by apply std_find_end.
    + by rewrite insert_insert_eq.
  - rewrite lookup_empty. simpl. by rewrite insert_insert_eq.
Qed.

Lemma Detach_nullptr ty x s :
  myObservers s = None → Detach ty x s = (s, debug_printf NullptrInDetach).
Proof. unfold Detach. by intros ->. Qed.

Lemma Detach_map ty x s m :
  myObservers s = Some m →
  Detach ty x s =
    (set_myObservers (detach_map m ty x) s,
     if decide (x ∈ default [] (m !! ty)) then []
     else debug_printf CouldNotDetach).
Proof.
  unfold Detach, detach_map. intros ->.
  assert (Hsub : ∃ m0, subscript m ty = (m0, default [] (m !! ty))
                 ∧ delete ty m0 = delete ty m
                 ∧ ∀ v, <[ty := v]> m0 = <[ty := v]> m).
  { unfold subscript. destruct (m !! ty) as [v|] eqn:Hv; simpl.
    - by exists m.
    - exists (<[ty := []]> m). split; [done|]. split.
      + by rewrite delete_insert_eq.
      + intros v. by rewrite insert_insert_eq. }
  destruct Hsub as (m0 & -> & Hdel & Hins).
  set (v := default [] (m !! ty)).
  destruct (decide (x ∈ v)) as [Hx | Hx].
  - destruct (remove_erase_in v x Hx) as [Hit Her].
    destruct (std_remove v x) as [v1 it]. simpl in *.
    rewrite decide_True by done. rewrite Her.
    destruct (decide (detached v x = [])).
    + rewrite delete_insert_eq, Hdel. by destruct (decide (delete ty m = ∅)).
    + rewrite Hins. by destruct (decide (<[ty := detached v x]> m = ∅)).
  - destruct (remove_erase_notin v x Hx) as [-> ->].
    rewrite decide_False by (intros Hn; by apply Hn).
    destruct (decide (v = [])).
    + rewrite delete_insert_eq, Hdel. by destruct (decide (delete ty m = ∅)).
    + rewrite Hins. by destruct (decide (<[ty := v]> m = ∅)).
Qed.

Lemma for_each_calls observers anEvent s :
  (for_each observers anEvent s).2 = (λ o, Call o anEvent) <$> observers.
Proof.
  revert s. induction observers as [|o l IH]; intros s; simpl; [done|].
  specialize (IH (OnNotify o anEvent s)).
  destruct (for_each l anEvent (OnNotify o anEvent s)). simpl in *.
  by rewrite IH.
Qed.

Lemma for_each_state observers anEvent s :
  (for_each observers anEvent s).1 =
    foldl (λ s' o, OnNotify o anEvent s') s observers.
Proof.
  revert s. induction observers as [|o l IH]; intros s; simpl; [done|].
  specialize (IH (OnNotify o anEvent s)).
  by destruct (for_each l anEvent (OnNotify o anEvent s)).
Qed.

Lemma calls_fmap_Call (l : list Observer) anEvent :
  calls ((λ o, Call o anEvent) <$> l) = l.
Proof. induction l as [|o l IH]; simpl; [done | by f_equal]. Qed.

Lemma printed_fmap_Call (l : list Observer) anEvent :
  printed ((λ o, Call o anEvent) <$> l) = [].
Proof. induction l as [|o l IH]; simpl; done. Qed.

(** Notify with a map in place invokes the subscribers of the event's
    category, in the order of the vector, and prints nothing. *)
Lemma Notify_map anEvent s m :
  myObservers s = Some m →
  Notify anEvent s =
    (foldl (λ s' o, OnNotify o anEvent s') s
       (subscribers s (typeid anEvent)),
     (λ o, Call o anEvent) <$> subscribers s (typeid anEvent)).
Proof.
  unfold Notify, subscribers. intros ->.
  destruct (m !! typeid anEvent) as [v|]; simpl; [|done].
  rewrite (surjective_pairing (for_each v anEvent s)).
  by rewrite for_each_calls, for_each_state.
Qed.

(** ** The registry invariant *)

Lemma registry_ok_NoDup s ty :
  registry_ok (myObservers s) → NoDup (subscribers s ty).
Proof.
  unfold registry_ok, subscribers. destruct (myObservers s) as [m|].
  - intros [_ Hm]. destruct (m !! ty) as [v|] eqn:Hv; simpl.
    + by apply (Hm ty v).
    + apply NoDup_nil_2.
  - intros _. apply NoDup_nil_2.
Qed.

Lemma registry_ok_lookup s m ty :
  registry_ok (myObservers s) → myObservers s = Some m →
  subscribers s ty = [] → m !! ty = None.
Proof.
  unfold subscribers. intros Hok Hm. rewrite Hm in *. destruct Hok as [_ Hok].
  destruct (m !! ty) as [v|] eqn:Hv; simpl; [|done].
  intros ->. by destruct (Hok ty [] Hv).
Qed.

Lemma Attach_ok ty x s :
  registry_ok (myObservers s) → registry_ok (myObservers (Attach ty x s).1).
Proof.
  intros Hok. destruct (decide (x ∈ subscribers s ty)) as [Hx | Hx].
  - by rewrite Attach_present.
  - rewrite Attach_absent by done. simpl. split; [apply insert_non_empty|].
    intros ty' v'. rewrite lookup_insert. case_decide as Hty.
    + intros [= <-]. split.
      * intros Hnil. by apply app_eq_nil in Hnil as [_ ?].
      * apply NoDup_app. split; [by apply registry_ok_NoDup|]. split.
        -- intros y Hy Hyx. apply list_elem_of_singleton in Hyx. by subst y.
        -- apply NoDup_singleton.
    + unfold registry_ok in Hok. destruct (myObservers s) as [m|]; simpl.
      * by apply Hok.
      * by rewrite lookup_empty.
Qed.

Lemma detach_map_ok m ty x :
  registry_ok (Some m) → registry_ok (detach_map m ty x).
Proof.
  intros [_ Hm]. unfold detach_map.
  set (v := detached (default [] (m !! ty)) x).
  destruct (decide (v = [])) as [Hv | Hv].
  - destruct (decide (delete ty m = ∅)); [done|]. split; [done|].
    intros ty' v'. rewrite lookup_delete. case_decide; [done | apply Hm].
  - destruct (decide (<[ty := v]> m = ∅)); [done|]. split; [done|].
    intros ty' v'. rewrite lookup_insert. case_decide; [|apply Hm].
    intros [= <-]. split; [done|].
    destruct (m !! ty) as [v0|] eqn:Hv0; simpl in *.
    + destruct (Hm ty v0 Hv0) as [_ Hnd]. subst v.
      destruct (decide (x ∈ v0)) as [Hx | Hx].
      * rewrite detached_NoDup by done. by apply NoDup_filter.
      * by rewrite (proj2 (remove_erase_notin v0 x Hx)).
    + subst v. unfold detached. rewrite decide_False by apply not_elem_of_nil.
      apply NoDup_nil_2.
Qed.

Lemma Detach_ok ty x s :
  registry_ok (myObservers s) → registry_ok (myObservers (Detach ty x s).1).
Proof.
  intros Hok. destruct (myObservers s) as [m|] eqn:Hm.
  - rewrite (Detach_map ty x s m Hm). simpl. by apply detach_map_ok.
  - rewrite Detach_nullptr by done. simpl. by rewrite Hm.
Qed.

Lemma foldl_OnNotify_inv (P : State → Prop) anEvent (l : list Observer) :
  (∀ o s', P s' → P (OnNotify o anEvent s')) →
  ∀ s, P s → P (foldl (λ s' o, OnNotify o anEvent s') s l).
Proof.
  intros Hcb. induction l as [|o l IH]; intros s Hs; simpl; [done|].
  apply IH. by apply Hcb.
Qed.

Lemma Notify_state anEvent s :
  (Notify anEvent s).1 =
    foldl (λ s' o, OnNotify o anEvent s') s (subscribers s (typeid anEvent)).
Proof.
  destruct (myObservers s) as [m|] eqn:Hm.
  - by rewrite (Notify_map anEvent s m Hm).
  - unfold Notify, subscribers. by rewrite Hm.
Qed.

Lemma Notify_calls anEvent s :
  calls (Notify anEvent s).2 = subscribers s (typeid anEvent).
Proof.
  destruct (myObservers s) as [m|] eqn:Hm.
  - rewrite (Notify_map anEvent s m Hm). simpl. apply calls_fmap_Call.
  - unfold Notify, subscribers, debug_printf. rewrite Hm. simpl.
    by destruct _DEBUG.
Qed.

Lemma run_inv (P : State → Prop) :
  (∀ ty x s, P s → P (Attach ty x s).1) →
  (∀ ty x s, P s → P (Detach ty x s).1) →
  (∀ o e s, P s → P (OnNotify o e s)) →
  ∀ ops s, P s → P (run ops s).1.
Proof.
  intros HA HD HN. induction ops as [|op ops IH]; intros s Hs; simpl; [done|].
  assert (Hstep : P (step op s).1).
  { destruct op as [ty x | ty x | ev]; simpl; [by apply HA | by apply HD |].
    rewrite Notify_state. apply foldl_OnNotify_inv; [|done].
    intros o s'. apply HN. }
  destruct (step op s) as [s1 out1]. specialize (IH s1 Hstep).
  by destruct (run ops s1).
Qed.

Lemma subscribers_Attach_absent ty x s :
  x ∉ subscribers s ty →
  subscribers (Attach ty x s).1 ty = subscribers s ty ++ [x].
Proof.
  intros Hx. rewrite Attach_absent by done. simpl.
  rewrite subscribers_set. by rewrite lookup_insert_eq.
Qed.

Lemma subscribers_detach_map ty x s m :
  myObservers s = Some m →
  subscribers (Detach ty x s).1 ty = detached (subscribers s ty) x.
Proof.
  intros Hm. rewrite (Detach_map ty x s m Hm). simpl.
  unfold subscribers, detach_map. rewrite Hm. simpl.
  set (v := detached (default [] (m !! ty)) x).
  destruct (decide (v = [])) as [Hv | Hv].
  - destruct (decide (delete ty m = ∅)); [done|]. simpl.
    by rewrite lookup_delete_eq.
  - destruct (decide (<[ty := v]> m = ∅)) as [He | He].
    + by destruct (insert_non_empty m ty v).
    + simpl. by rewrite lookup_insert_eq.
Qed.

Lemma subscribers_Detach_other ty ty' x s :
  ty ≠ ty' → subscribers (Detach ty x s).1 ty' = subscribers s ty'.
Proof.
  intros Hne. destruct (myObservers s) as [m|] eqn:Hm.
  - rewrite (Detach_map ty x s m Hm). simpl.
    unfold subscribers, detach_map. rewrite Hm. simpl.
    set (v := detached (default [] (m !! ty)) x).
    assert (Hm' : (if decide (v = []) then delete ty m else <[ty := v]> m)
                    !! ty' = m !! ty').
    { destruct (decide (v = []));
        [by rewrite lookup_delete_ne | by rewrite lookup_insert_ne]. }
    destruct (decide ((if decide (v = []) then delete ty m
                       else <[ty := v]> m) = ∅)) as [He | He]; simpl.
    + rewrite He in Hm'. rewrite lookup_empty in Hm'. by rewrite <- Hm'.
    + by rewrite Hm'.
  - by rewrite Detach_nullptr.
Qed.

Lemma subscribers_Attach_other ty ty' x s :
  ty ≠ ty' → subscribers (Attach ty x s).1 ty' = subscribers s ty'.
Proof.
  intros Hne. destruct (decide (x ∈ subscribers s ty)) as [Hx | Hx].
  - by rewrite Attach_present.
  - rewrite Attach_absent by done. simpl. rewrite subscribers_set.
    rewrite lookup_insert_ne by done. unfold subscribers.
    destruct (myObservers s); simpl; [done | by rewrite lookup_empty].
Qed.

(** ** The properties of the specification *)

(** C1 (order preservation). When no callback changes [myObservers] (none
    re-enters Attach or Detach): in a state where category [ty] has no
    subscriber, attaching the distinct handles [A], then [B], then [C] to
    [ty] and notifying an event of that category performs exactly three
    actions, the callbacks of [A], [B] and [C], once each and in this
    order; the state it leaves is the one the three callbacks produce when
    run in this order. *)
Theorem Notify_in_Attach_order (ty : type_index) (A B C : Observer)
    (anEvent : Event) (s : State) :
  (∀ o e s', myObservers (OnNotify o e s') = myObservers s') →
  subscribers s ty = [] →
  A ≠ B → A ≠ C → B ≠ C →
  typeid anEvent = ty →
  Notify anEvent (Attach ty C (Attach ty B (Attach ty A s).1).1).1 =
    (OnNotify C anEvent (OnNotify B anEvent (OnNotify A anEvent
       (Attach ty C (Attach ty B (Attach ty A s).1).1).1)),
     [Call A anEvent; Call B anEvent; Call C anEvent]).
Proof.
  intros _ Hs HAB HAC HBC Hty.
  assert (H1 : subscribers (Attach ty A s).1 ty = [A]).
  { rewrite subscribers_Attach_absent; rewrite Hs; [done|].
    apply not_elem_of_nil. }
  assert (H2 : subscribers (Attach ty B (Attach ty A s).1).1 ty = [A; B]).
  { rewrite subscribers_Attach_absent; rewrite H1; [done|].
    by apply not_elem_of_cons; split; [|apply not_elem_of_nil]. }
  assert (H3 : subscribers
                 (Attach ty C (Attach ty B (Attach ty A s).1).1).1 ty
               = [A; B; C]).
  { rewrite subscribers_Attach_absent; rewrite H2; [done|].
    rewrite !not_elem_of_cons. repeat split; try done. apply not_elem_of_nil. }
  set (s3 := (Attach ty C (Attach ty B (Attach ty A s).1).1).1) in *.
  destruct (myObservers s3) as [m|] eqn:Hm.
  - rewrite (Notify_map anEvent s3 m Hm), Hty, H3. done.
  - unfold subscribers in H3. by rewrite Hm in H3.
Qed.

(** C2 (duplicate subscribe). Attaching a handle that the category's vector
    already holds returns the state as it is, with the diagnostic as the
    only action; hence attaching twice is attaching once. In a state of
    the registry invariant, and when no callback changes [myObservers], a
    Notify of the category after the two Attach invokes the handle's
    callback exactly once. *)
Theorem Attach_twice (ty : type_index) (x : Observer) (anEvent : Event)
    (s : State) :
  registry_ok (myObservers s) →
  typeid anEvent = ty →
  (x ∈ subscribers s ty →
     Attach ty x s = (s, debug_printf AlreadyAttached))
  ∧ Attach ty x (Attach ty x s).1
      = ((Attach ty x s).1, debug_printf AlreadyAttached)
  ∧ ((∀ o e s', myObservers (OnNotify o e s') = myObservers s') →
     deliveries x (Notify anEvent (Attach ty x (Attach ty x s).1).1).2 = 1).
Proof.
  intros Hok Hty.
  assert (Hin : x ∈ subscribers (Attach ty x s).1 ty).
  { destruct (decide (x ∈ subscribers s ty)) as [Hx | Hx].
    - by rewrite Attach_present.
    - rewrite subscribers_Attach_absent by done.
      apply elem_of_app. right. left. }
  split; [apply Attach_present|].
  rewrite (Attach_present ty x _ Hin). split; [done|]. intros _. simpl.
  unfold deliveries. rewrite Notify_calls, Hty.
  pose proof (registry_ok_NoDup _ ty (Attach_ok ty x s Hok)) as Hnd.
  apply list_elem_of_split in Hin as (v1 & v2 & Hv). rewrite Hv in *.
  apply NoDup_app in Hnd as (_ & H1 & Hnd2).
  apply NoDup_cons in Hnd2 as [H2 _].
  rewrite filter_app, filter_cons_True by done.
  rewrite !filter_eq_notin; [done | done |].
  intros Hx. apply (H1 x Hx). left.
Qed.

(** C3 (clean unsubscribe). Detaching the handle that is alone in its
    category's vector erases the category's key, and resets [myObservers]
    to [nullptr] when no key is left; in particular, when this was the only
    category, Detach leaves the state of a process that never attached
    anything, and prints nothing. *)
Theorem Detach_last_of_category (ty : type_index) (x : Observer)
    (s : State) (m : gmap type_index (list Observer)) :
  myObservers s = Some m →
  m !! ty = Some [x] →
  Detach ty x s =
    (set_myObservers
       (if decide (delete ty m = ∅) then None else Some (delete ty m)) s, [])
  ∧ (m = {[ty := [x]]} → Detach ty x s = (initial (world s), [])).
Proof.
  intros Hm Hty.
  assert (Hd : detached [x] x = []).
  { apply (detached_once [] [] x); apply not_elem_of_nil. }
  assert (HD : Detach ty x s =
    (set_myObservers
       (if decide (delete ty m = ∅) then None else Some (delete ty m)) s, [])).
  { rewrite (Detach_map ty x s m Hm). unfold detach_map. rewrite Hty. simpl.
    rewrite Hd.
    destruct (decide (@nil Observer = [])) as [_ | Hn]; [|done].
    destruct (decide (x ∈ [x])) as [_ | Hn]; [done|].
    destruct Hn. left. }
  split; [exact HD|].
  intros ->. rewrite HD, delete_singleton_eq. by rewrite decide_True.
Qed.

(** C4 (category isolation). When no callback changes [myObservers]: for
    distinct categories [X] and [Y], Notify of an event of category [X]
    does not invoke the callback of a handle that is subscribed to [Y]
    only. *)
Theorem Notify_other_category (X Y : type_index) (anEvent : Event)
    (o : Observer) (s : State) :
  (∀ o e s', myObservers (OnNotify o e s') = myObservers s') →
  X ≠ Y →
  typeid anEvent = X →
  subscribed_only s o Y →
  o ∉ calls (Notify anEvent s).2.
Proof.
  intros _ Hne Hty [_ Hother]. rewrite Notify_calls, Hty. by apply Hother.
Qed.

(** C5 (unsubscribe with nothing to remove). In a state of the registry
    invariant, Detach of a handle that the category's vector does not
    hold (because [myObservers] is [nullptr], because the category has no
    key, or because the vector lacks the handle) returns the state as it
    is; its only action is the diagnostic of the case, printed by a debug
    build. *)
Theorem Detach_nothing_to_remove (ty : type_index) (x : Observer)
    (s : State) :
  registry_ok (myObservers s) →
  x ∉ subscribers s ty →
  Detach ty x s =
    (s, debug_printf (match myObservers s with
                      | None => NullptrInDetach
                      | Some _ => CouldNotDetach
                      end)).
Proof.
  intros Hok Hx. destruct (myObservers s) as [m|] eqn:Hm.
  - rewrite (Detach_map ty x s m Hm).
    unfold subscribers in Hx. rewrite Hm in Hx.
    rewrite decide_False by done. f_equal.
    rewrite <- (State_eta s) at 2. rewrite Hm. f_equal.
    unfold detach_map. rewrite (proj2 (remove_erase_notin _ x Hx)).
    destruct Hok as [Hne Hvs].
    destruct (m !! ty) as [v|] eqn:Hv; simpl.
    + destruct (Hvs ty v Hv) as [Hv0 _].
      destruct (decide (v = [])) as [|_]; [done|].
      rewrite insert_id by done. by rewrite decide_False.
    + destruct (decide (@nil Observer = [])) as [_|]; [|done].
      rewrite delete_id by done. by rewrite decide_False.
  - by apply Detach_nullptr.
Qed.

(** C6 (publish without subscribers), as the code has it. Notify of an
    event whose category has no subscriber, the case of [myObservers]
    being [nullptr] included, returns the state as it is and invokes no
    callback. It prints nothing when the map exists; when [myObservers] is
    [nullptr] it prints the diagnostic of lines 136-138, which only a debug
    build compiles in. *)
Theorem Notify_no_subscriber (anEvent : Event) (s : State) :
  subscribers s (typeid anEvent) = [] →
  Notify anEvent s =
    (s, match myObservers s with
        | None => debug_printf NullptrInNotify
        | Some _ => []
        end).
Proof.
  intros Hs. destruct (myObservers s) as [m|] eqn:Hm.
  - by rewrite (Notify_map anEvent s m Hm), Hs.
  - unfold Notify. by rewrite Hm.
Qed.

(** C7 (publish leaves the registry alone). When no callback changes
    [myObservers] (none of them re-enters Attach or Detach), the registry
    after Notify is the registry before it, for every state and event. *)
Theorem Notify_keeps_registry (anEvent : Event) (s : State) :
  (∀ o e s', myObservers (OnNotify o e s') = myObservers s') →
  myObservers (Notify anEvent s).1 = myObservers s.
Proof.
  intros Hcb. rewrite Notify_state.
  apply (foldl_OnNotify_inv (λ s', myObservers s' = myObservers s)); [|done].
  intros o s' Hs'. by rewrite Hcb.
Qed.

(** C8 (structural invariant). Every state reached from a process with
    [myObservers = nullptr] by a sequence of Attach, Detach and Notify has
    a registry that is [nullptr] or a map with at least one key, in which
    every vector is non-empty and holds no handle twice. The callbacks
    that Notify runs are user code: they are assumed to keep the
    invariant, as they do when they leave [myObservers] alone. *)
Theorem reachable_registry_ok (s : State) :
  (∀ o e s', registry_ok (myObservers s') →
             registry_ok (myObservers (OnNotify o e s'))) →
  reachable s →
  registry_ok (myObservers s).
Proof.
  intros Hcb (w & ops & <-).
  apply (run_inv (λ s', registry_ok (myObservers s'))); try done.
  - intros ty x s'. apply Attach_ok.
  - intros ty x s'. apply Detach_ok.
Qed.

(** C9 (unsubscribe keeps the order). In a state of the registry
    invariant whose vector for [ty] is [v1], then [x], then [v2], Detach of
    [x] leaves [v1] followed by [v2] (only [x] is gone, the others keep
    their relative order) and prints nothing; when no callback changes
    [myObservers], a Notify of the category afterwards invokes the
    callbacks of [v1] followed by [v2], in this order. *)
Theorem Detach_keeps_order (ty : type_index) (x : Observer)
    (v1 v2 : list Observer) (anEvent : Event) (s : State) :
  registry_ok (myObservers s) →
  subscribers s ty = v1 ++ x :: v2 →
  typeid anEvent = ty →
  subscribers (Detach ty x s).1 ty = v1 ++ v2
  ∧ (Detach ty x s).2 = []
  ∧ ((∀ o e s', myObservers (OnNotify o e s') = myObservers s') →
     calls (Notify anEvent (Detach ty x s).1).2 = v1 ++ v2).
Proof.
  intros Hok Hv Hty.
  pose proof (registry_ok_NoDup s ty Hok) as Hnd. rewrite Hv in Hnd.
  apply NoDup_app in Hnd as (_ & H1 & Hnd2).
  apply NoDup_cons in Hnd2 as [H2 _].
  assert (Hx1 : x ∉ v1) by (intros Hx; apply (H1 x Hx); left).
  destruct (myObservers s) as [m|] eqn:Hm.
  - assert (Hsub : subscribers (Detach ty x s).1 ty = v1 ++ v2).
    { rewrite (subscribers_detach_map ty x s m Hm), Hv.
      by apply detached_once. }
    split; [exact Hsub|]. split.
    + rewrite (Detach_map ty x s m Hm). simpl.
      unfold subscribers in Hv. rewrite Hm in Hv. rewrite Hv.
      rewrite decide_True; [done|]. apply elem_of_app. right. left.
    + intros _. by rewrite Notify_calls, Hty.
  - unfold subscribers in Hv. rewrite Hm in Hv. by destruct v1.
Qed.

(** C10 (per-category frame). For distinct categories [C] and [D], in every
    state, neither Attach nor Detach called for [C] changes the subscriber
    list of [D]. *)
Theorem Attach_Detach_frame (C D : type_index) (x : Observer) (s : State) :
  C ≠ D →
  subscribers (Attach C x s).1 D = subscribers s D
  ∧ subscribers (Detach C x s).1 D = subscribers s D.
Proof.
  intros Hne. split.
  - by apply subscribers_Attach_other.
  - by apply subscribers_Detach_other.
Qed.

(** ** Further properties of Attach, Detach and Notify *)

Lemma world_Attach ty x s : world (Attach ty x s).1 = world s.
Proof.
  destruct (decide (x ∈ subscribers s ty)) as [Hx | Hx].
  - by rewrite Attach_present.
  - by rewrite Attach_absent.
Qed.

Lemma world_Detach ty x s : world (Detach ty x s).1 = world s.
Proof.
  destruct (myObservers s) as [m|] eqn:Hm.
  - by rewrite (Detach_map ty x s m Hm).
  - by rewrite Detach_nullptr.
Qed.

Lemma subscribers_Detach_same ty x s :
  subscribers (Detach ty x s).1 ty = detached (subscribers s ty) x.
Proof.
  destruct (myObservers s) as [m|] eqn:Hm.
  - by apply subscribers_detach_map with m.
  - rewrite Detach_nullptr by done. unfold subscribers. simpl. rewrite Hm.
    unfold detached. by rewrite decide_False by apply not_elem_of_nil.
Qed.

Lemma subscribers_Attach_present ty x s :
  x ∈ subscribers s ty → subscribers (Attach ty x s).1 ty = subscribers s ty.
Proof. intros Hx. by rewrite Attach_present. Qed.

(** On a vector without repetitions, Detach filters the handle out. *)
Lemma detached_filter v x :
  NoDup v → detached v x = filter (λ y, y ≠ x) v.
Proof.
  intros Hnd. destruct (decide (x ∈ v)) as [Hx | Hx].
  - by apply detached_NoDup.
  - by rewrite (proj2 (remove_erase_notin v x Hx)), filter_ne_notin.
Qed.

Lemma notin_detached v x : NoDup v → x ∉ detached v x.
Proof.
  intros Hnd. rewrite detached_filter by done.
  rewrite list_elem_of_filter. by intros [Hne _].
Qed.

(** Under the invariant a state is determined by its subscriber lists and
    its world: no key stands for an empty vector, no map stands for no
    key. *)
Lemma State_ext (s1 s2 : State) :
  registry_ok (myObservers s1) → registry_ok (myObservers s2) →
  world s1 = world s2 →
  (∀ ty, subscribers s1 ty = subscribers s2 ty) →
  s1 = s2.
Proof.
  destruct s1 as [p1 w1], s2 as [p2 w2]. unfold subscribers. simpl.
  intros Hok1 Hok2 -> Hsub. f_equal.
  assert (Hnone : ∀ (m : gmap type_index (list Observer)),
            registry_ok (Some m) → (∀ ty, default [] (m !! ty) = []) → False).
  { intros m [Hne Hm] Hall. apply map_choose in Hne as (ty & v & Hv).
    specialize (Hall ty). rewrite Hv in Hall. simpl in Hall.
    by destruct (Hm ty v Hv). }
  destruct p1 as [m1|], p2 as [m2|]; [| | |done].
  - f_equal. apply map_eq. intros ty. specialize (Hsub ty).
    destruct Hok1 as [_ Hm1], Hok2 as [_ Hm2].
    destruct (m1 !! ty) as [v1|] eqn:H1, (m2 !! ty) as [v2|] eqn:H2;
      simpl in Hsub; [by subst | | | done].
    + subst v1. by destruct (Hm1 ty [] H1).
    + subst v2. by destruct (Hm2 ty [] H2).
  - destruct (Hnone m1 Hok1 Hsub).
  - destruct (Hnone m2 Hok2). intros ty. by rewrite <- Hsub.
Qed.

(** X1 (round trip). In a state of the registry invariant, attaching a
    handle that the category does not hold and detaching it again gives
    the state back as it was, the key and the map that Attach may have
    created included, and the Detach prints nothing. *)
Theorem Detach_Attach_roundtrip (ty : type_index) (x : Observer) (s : State) :
  registry_ok (myObservers s) →
  x ∉ subscribers s ty →
  Detach ty x (Attach ty x s).1 = (s, []).
Proof.
  intros Hok Hx.
  assert (Hin : x ∈ subscribers (Attach ty x s).1 ty).
  { rewrite subscribers_Attach_absent by done. apply elem_of_app. right. left. }
  rewrite (surjective_pairing (Detach ty x (Attach ty x s).1)). f_equal.
  - apply State_ext.
    + by apply Detach_ok, Attach_ok.
    + done.
    + by rewrite world_Detach, world_Attach.
    + intros ty'. destruct (decide (ty = ty')) as [<- | Hne].
      * rewrite subscribers_Detach_same, subscribers_Attach_absent by done.
        rewrite (detached_once _ [] x) by (done || apply not_elem_of_nil).
        by rewrite app_nil_r.
      * by rewrite subscribers_Detach_other, subscribers_Attach_other.
  - unfold subscribers in Hin.
    destruct (myObservers (Attach ty x s).1) as [m|] eqn:Hm;
      [|by apply elem_of_nil in Hin].
    rewrite (Detach_map ty x _ m Hm). simpl. by rewrite decide_True.
Qed.

(** X2 (detached means silent). In a state of the registry invariant,
    after Detach the category's vector no longer holds the handle, and,
    when no callback changes [myObservers], a Notify of that category does
    not invoke its callback. *)
Theorem Detach_stops_delivery (ty : type_index) (x : Observer)
    (anEvent : Event) (s : State) :
  registry_ok (myObservers s) →
  typeid anEvent = ty →
  (x ∉ subscribers (Detach ty x s).1 ty)
  ∧ ((∀ o e s', myObservers (OnNotify o e s') = myObservers s') →
     x ∉ calls (Notify anEvent (Detach ty x s).1).2).
Proof.
  intros Hok Hty.
  assert (Hx : x ∉ subscribers (Detach ty x s).1 ty).
  { rewrite subscribers_Detach_same. by apply notin_detached, registry_ok_NoDup. }
  split; [done|]. intros _. by rewrite Notify_calls, Hty.
Qed.

(** X3 (Detach is idempotent). In a state of the registry invariant, a
    second Detach of the same handle from the same category leaves the
    state the first one left. *)
Theorem Detach_twice (ty : type_index) (x : Observer) (s : State) :
  registry_ok (myObservers s) →
  (Detach ty x (Detach ty x s).1).1 = (Detach ty x s).1.
Proof.
  intros Hok. apply State_ext.
  - by do 2 apply Detach_ok.
  - by apply Detach_ok.
  - by rewrite world_Detach.
  - intros ty'. destruct (decide (ty = ty')) as [<- | Hne].
    + rewrite subscribers_Detach_same.
      pose proof (registry_ok_NoDup _ ty (Detach_ok ty x s Hok)) as Hnd.
      rewrite detached_filter by done. apply filter_ne_notin.
      rewrite subscribers_Detach_same.
      by apply notin_detached, registry_ok_NoDup.
    + by rewrite subscribers_Detach_other.
Qed.

(** X5 (one delivery per subscriber). In a state of the registry
    invariant, and when no callback changes [myObservers], Notify invokes
    the callback of every handle subscribed to the event's category
    exactly once, and of no other handle. *)
Theorem Notify_once_each (o : Observer) (anEvent : Event) (s : State) :
  (∀ o e s', myObservers (OnNotify o e s') = myObservers s') →
  registry_ok (myObservers s) →
  deliveries o (Notify anEvent s).2 =
    if decide (o ∈ subscribers s (typeid anEvent)) then 1 else 0.
Proof.
  intros _ Hok. unfold deliveries. rewrite Notify_calls.
  pose proof (registry_ok_NoDup s (typeid anEvent) Hok) as Hnd.
  destruct (decide (o ∈ subscribers s (typeid anEvent))) as [Ho | Ho].
  - apply list_elem_of_split in Ho as (v1 & v2 & Hv). rewrite Hv in *.
    apply NoDup_app in Hnd as (_ & H1 & Hnd2).
    apply NoDup_cons in Hnd2 as [H2 _].
    rewrite filter_app, filter_cons_True by done.
    rewrite !filter_eq_notin; [done | done |].
    intros Hx. apply (H1 o Hx). left.
  - by rewrite filter_eq_notin.
Qed.

Lemma set_myObservers_twice p q (s : State) :
  set_myObservers p (set_myObservers q s) = set_myObservers p s.
Proof. done. Qed.

Lemma Attach_state ty x s :
  (Attach ty x s).1 =
    if decide (x ∈ subscribers s ty) then s
    else set_myObservers
           (Some (<[ty := subscribers s ty ++ [x]]>
                    (default ∅ (myObservers s)))) s.
Proof.
  destruct (decide (x ∈ subscribers s ty)) as [Hx | Hx].
  - by rewrite Attach_present.
  - by rewrite Attach_absent.
Qed.

(** X6 (nothing is left allocated). In every state reached from a process
    with [myObservers = nullptr] by Attach, Detach and Notify, with
    callbacks that keep the invariant, [myObservers] is [nullptr] exactly
    when no category has a subscriber: the map lives as long as a
    subscription does, and no longer. *)
Theorem reachable_nullptr_iff (s : State) :
  (∀ o e s', registry_ok (myObservers s') →
             registry_ok (myObservers (OnNotify o e s'))) →
  reachable s →
  myObservers s = None ↔ ∀ ty, subscribers s ty = [].
Proof.
  intros Hcb (w & ops & <-).
  assert (Hok : registry_ok (myObservers (run ops (initial w)).1)).
  { apply (run_inv (λ s', registry_ok (myObservers s'))); try done.
    - intros ty x s'. apply Attach_ok.
    - intros ty x s'. apply Detach_ok. }
  set (s := (run ops (initial w)).1) in *. split.
  - intros Hn ty. unfold subscribers. by rewrite Hn.
  - intros Hall. destruct (myObservers s) as [m|] eqn:Hm; [|done].
    destruct Hok as [Hne Hvs]. apply map_choose in Hne as (ty & v & Hv).
    specialize (Hall ty). unfold subscribers in Hall.
    rewrite Hm, Hv in Hall. simpl in Hall. by destruct (Hvs ty v Hv).
Qed.

(** X7 (subscriptions to different categories commute). In every state,
    two Attach calls for distinct categories leave the same state in
    either order. *)
Theorem Attach_Attach_commute (C D : type_index) (x y : Observer)
    (s : State) :
  C ≠ D →
  (Attach C x (Attach D y s).1).1 = (Attach D y (Attach C x s).1).1.
Proof.
  intros Hne.
  rewrite (Attach_state C x (Attach D y s).1), (Attach_state D y (Attach C x s).1).
  rewrite (subscribers_Attach_other D C y s) by done.
  rewrite (subscribers_Attach_other C D x s) by done.
  rewrite (Attach_state D y s), (Attach_state C x s).
  destruct (decide (x ∈ subscribers s C)), (decide (y ∈ subscribers s D));
    try done.
  simpl. rewrite !set_myObservers_twice. do 2 f_equal.
  by apply insert_insert_ne.
Qed.

(** X8 (when the map is freed). In a state of the registry invariant with
    a map in place, Detach resets [myObservers] to [nullptr] exactly when
    the handle was the only subscriber of the only category. *)
Theorem Detach_nullptr_iff (ty : type_index) (x : Observer) (s : State)
    (m : gmap type_index (list Observer)) :
  registry_ok (myObservers s) →
  myObservers s = Some m →
  myObservers (Detach ty x s).1 = None ↔ m = {[ty := [x]]}.
Proof.
  intros Hok Hm. rewrite Hm in Hok. destruct Hok as [Hne Hvs]. split.
  - rewrite (Detach_map ty x s m Hm). simpl. unfold detach_map.
    set (v := default [] (m !! ty)).
    destruct (decide (detached v x = [])) as [Hd | Hd].
    + destruct (decide (delete ty m = ∅)) as [He | He]; [|done]. intros _.
      destruct (m !! ty) as [v0|] eqn:Hv0.
      * destruct (Hvs ty v0 Hv0) as [Hv0ne Hnd]. simpl in v. subst v.
        rewrite detached_filter in Hd by done.
        assert (Hall : ∀ y, y ∈ v0 → y = x).
        { intros y Hy. destruct (decide (y = x)) as [|Hyx]; [done|].
          assert (Hin : y ∈ filter (λ y, y ≠ x) v0)
            by (by apply list_elem_of_filter).
          rewrite Hd in Hin. by apply elem_of_nil in Hin. }
        assert (Hv0x : v0 = [x]).
        { destruct v0 as [|a [|b v0]]; [done | |].
          - f_equal. apply Hall. left.
          - apply NoDup_cons in Hnd as [Hab _]. destruct Hab.
            rewrite (Hall a) by left. rewrite (Hall b) by (right; left). left. }
        subst v0. rewrite <- (insert_delete_id m ty [x] Hv0), He.
        apply insert_empty.
      * rewrite delete_id in He by done. done.
    + destruct (decide (<[ty := detached v x]> m = ∅)) as [He | He]; [|done].
      by destruct (insert_non_empty m ty (detached v x)).
  - intros ->.
    rewrite (Detach_map ty x s _ Hm). simpl. unfold detach_map.
    rewrite lookup_singleton_eq. simpl.
    assert (Hd : detached [x] x = []).
    { apply (detached_once [] [] x); apply not_elem_of_nil. }
    rewrite Hd.
    destruct (decide (@nil Observer = [])) as [_ | Hn]; [|done].
    rewrite delete_singleton_eq. by rewrite decide_True.
Qed.

(** X9 (a new subscriber comes last). When no callback changes
    [myObservers]: in every state, after Attach of a handle that the
    category does not hold, a Notify of the category invokes the callbacks
    of the former subscribers in their order and then the callback of the
    new handle. *)
Theorem Notify_after_Attach (ty : type_index) (x : Observer)
    (anEvent : Event) (s : State) :
  (∀ o e s', myObservers (OnNotify o e s') = myObservers s') →
  x ∉ subscribers s ty →
  typeid anEvent = ty →
  calls (Notify anEvent (Attach ty x s).1).2 = subscribers s ty ++ [x].
Proof.
  intros _ Hx Hty. by rewrite Notify_calls, Hty, subscribers_Attach_absent.
Qed.

(** X10 (a subscription outlives a Notify). When no callback changes
    [myObservers], a Notify that follows another Notify invokes the
    callbacks of the handles that were subscribed to its event's category
    before the first one, in the same order: delivering an event consumes
    no subscription. *)
Theorem Notify_after_Notify (ev1 ev2 : Event) (s : State) :
  (∀ o e s', myObservers (OnNotify o e s') = myObservers s') →
  calls (Notify ev2 (Notify ev1 s).1).2 = subscribers s (typeid ev2).
Proof.
  intros Hcb. rewrite Notify_calls. unfold subscribers.
  assert (Hreg : myObservers (Notify ev1 s).1 = myObservers s); [|by rewrite Hreg].
  rewrite Notify_state.
  apply (foldl_OnNotify_inv (λ s', myObservers s' = myObservers s)); [|done].
  intros o s' Hs'. by rewrite Hcb.
Qed.

(** X11 (re-subscribing loses the place). In a state of the registry
    invariant where the category holds the handle, Detach followed by
    Attach of the handle moves it behind all other subscribers of the
    category, which keep their order. *)
Theorem Attach_after_Detach (ty : type_index) (x : Observer) (s : State) :
  registry_ok (myObservers s) →
  x ∈ subscribers s ty →
  subscribers (Attach ty x (Detach ty x s).1).1 ty =
    filter (λ y, y ≠ x) (subscribers s ty) ++ [x].
Proof.
  intros Hok Hx.
  pose proof (registry_ok_NoDup s ty Hok) as Hnd.
  assert (Hd : subscribers (Detach ty x s).1 ty
               = filter (λ y, y ≠ x) (subscribers s ty)).
  { by rewrite subscribers_Detach_same, detached_filter. }
  rewrite subscribers_Attach_absent; rewrite Hd; [done|].
  rewrite list_elem_of_filter. by intros [Hne _].
Qed.

(** X12 (Detach calls commute). In a state of the registry invariant, two
    Detach calls, for any handles and categories, leave the same state in
    either order. *)
Theorem Detach_Detach_commute (C D : type_index) (x y : Observer)
    (s : State) :
  registry_ok (myObservers s) →
  (Detach C x (Detach D y s).1).1 = (Detach D y (Detach C x s).1).1.
Proof.
  intros Hok. apply State_ext.
  - by do 2 apply Detach_ok.
  - by do 2 apply Detach_ok.
  - by rewrite !world_Detach.
  - intros ty.
    assert (Hsub : ∀ E z s', registry_ok (myObservers s') →
              subscribers (Detach E z s').1 ty =
                if decide (E = ty) then filter (λ y, y ≠ z) (subscribers s' ty)
                else subscribers s' ty).
    { intros E z s' Hok'. destruct (decide (E = ty)) as [-> | Hne].
      - rewrite subscribers_Detach_same.
        by apply detached_filter, registry_ok_NoDup.
      - by apply subscribers_Detach_other. }
    rewrite !Hsub by (done || by apply Detach_ok).
    destruct (decide (C = ty)), (decide (D = ty)); try done.
    rewrite !list_filter_filter. apply list_filter_iff.
    intros z. split; intros [Hz1 Hz2]; by split.
Qed.

End Subject.

(** ** A concrete process

    Categories and handles are numbers, an event is a pair of its category
    and a payload, and the callback of every observer appends the handle
    and the event to a log, which is all there is in the world. *)

Definition Ev : Type := nat * nat.

Definition LogState : Type := @State nat _ _ nat (list (nat * Ev)).

Definition log_OnNotify (o : nat) (e : Ev) (s : LogState) : LogState :=
  {| myObservers := myObservers s; world := world s ++ [(o, e)] |}.

Definition fresh : LogState := initial [].

(** A running process: handles 1, 2, 3 attached to category 7, handle 4
    to category 8. *)
Definition busy : LogState :=
  (run fst false log_OnNotify
     [OpAttach 7 1; OpAttach 7 2; OpAttach 7 3; OpAttach 8 4] fresh).1.

(** The same process after more traffic, with a Notify and some Detach. *)
Definition later : LogState :=
  (run fst true log_OnNotify
     [OpAttach 7 1; OpAttach 7 2; OpNotify (7, 10); OpDetach 7 1;
      OpAttach 8 4; OpAttach 7 2; OpDetach 7 2; OpDetach 9 5] fresh).1.

Lemma log_OnNotify_registry o e (s : LogState) :
  myObservers (log_OnNotify o e s) = myObservers s.
Proof. reflexivity. Qed.

Lemma busy_registry :
  myObservers busy = Some (<[8 := [4]]> {[7 := [1; 2; 3]]}).
Proof. reflexivity. Qed.

(** The scenarios of the specification: one observer is notified once
    with the payload and not at all once detached; of two observers the
    one still attached is notified; an observer attached twice is notified
    once. The log in the world is what the callbacks saw. *)
Example scenario_attach_notify_detach :
  world (run fst false log_OnNotify
           [OpAttach 7 1; OpNotify (7, 10); OpDetach 7 1; OpNotify (7, 20)]
           fresh).1 = [(1, (7, 10))]
  ∧ myObservers (run fst false log_OnNotify
           [OpAttach 7 1; OpNotify (7, 10); OpDetach 7 1; OpNotify (7, 20)]
           fresh).1 = None.
Proof. split; reflexivity. Qed.

Example scenario_detach_one_of_two :
  (run fst false log_OnNotify
     [OpAttach 7 1; OpAttach 7 2; OpDetach 7 1; OpNotify (7, 10)] fresh).2
  = [Call 2 (7, 10)].
Proof. reflexivity. Qed.

Example scenario_attach_twice :
  (run fst true log_OnNotify
     [OpAttach 7 1; OpAttach 7 1; OpNotify (7, 10)] fresh).2
  = [Printf AlreadyAttached; Call 1 (7, 10)].
Proof. reflexivity. Qed.

(** [erase] takes the single iterator that [std::remove] returns: on a
    vector with a repeated handle, which Attach never builds, the slot at
    the iterator goes and the stale tail stays. *)
Example remove_erase_repeated :
  std_remove [5; 1; 1; 3] 1 = ([5; 3; 1; 3], 2)
  ∧ erase [5; 3; 1; 3] 2 = [5; 3; 3].
Proof. split; reflexivity. Qed.

(** The registry invariant is what the statements about Detach rest on: a
    map without keys, which no sequence of calls leaves behind, would be
    torn down by a Detach that finds nothing to remove. *)
Example Detach_map_without_keys :
  myObservers
    (Detach (Event := Ev) false 7 1
       {| myObservers := Some ∅; world := [] : list (nat * Ev) |}).1 = None
  ∧ ¬ registry_ok (Some (∅ : gmap nat (list nat))).
Proof. split; [reflexivity | by intros [Hne _]]. Qed.

(** C1 on the concrete process: the three callbacks, in order. *)
Lemma Notify_in_Attach_order_fresh :
  subscribers fresh 7 = []
  ∧ Notify fst false log_OnNotify (7, 10)
      (Attach (Event := Ev) false 7 3 (Attach (Event := Ev) false 7 2 (Attach (Event := Ev) false 7 1 fresh).1).1).1 =
    (log_OnNotify 3 (7, 10) (log_OnNotify 2 (7, 10) (log_OnNotify 1 (7, 10)
       (Attach (Event := Ev) false 7 3 (Attach (Event := Ev) false 7 2 (Attach (Event := Ev) false 7 1 fresh).1).1).1)),
     [Call 1 (7, 10); Call 2 (7, 10); Call 3 (7, 10)]).
Proof.
  split; [reflexivity|].
  apply (Notify_in_Attach_order fst false log_OnNotify 7 1 2 3 (7, 10) fresh);
    [intros o e s'; reflexivity | reflexivity | lia | lia | lia | reflexivity].
Defined.

(** C2 on the concrete process: handle 2 is attached to category 7 already. *)
Lemma Attach_twice_busy :
  registry_ok (myObservers busy)
  ∧ (2 ∈ subscribers busy 7 →
       Attach (Event := Ev) true 7 2 busy
         = (busy, debug_printf true AlreadyAttached))
  ∧ Attach (Event := Ev) true 7 2 (Attach (Event := Ev) true 7 2 busy).1
      = ((Attach (Event := Ev) true 7 2 busy).1, debug_printf true AlreadyAttached)
  ∧ deliveries 2
      (Notify fst true log_OnNotify (7, 10)
         (Attach (Event := Ev) true 7 2 (Attach (Event := Ev) true 7 2 busy).1).1).2 = 1.
Proof.
  split; [compute_done|].
  destruct (Attach_twice fst true log_OnNotify 7 2 (7, 10) busy)
    as (Hpresent & Htwice & Honce); [compute_done | reflexivity |].
  split; [exact Hpresent|]. split; [exact Htwice|].
  apply Honce. intros o e s'. reflexivity.
Defined.

(** C3 on the concrete process: one Attach, then the matching Detach. *)
Lemma Detach_last_of_category_fresh :
  myObservers (Attach (Event := Ev) false 7 1 fresh).1 = Some {[7 := [1]]}
  ∧ Detach (Event := Ev) false 7 1 (Attach (Event := Ev) false 7 1 fresh).1
      = (fresh, []).
Proof.
  split; [reflexivity|].
  apply (Detach_last_of_category false 7 1
           (Attach (Event := Ev) false 7 1 fresh).1 {[7 := [1]]});
    reflexivity.
Defined.

(** C4 on the concrete process: handle 4 listens to category 8 only. *)
Lemma Notify_other_category_busy :
  subscribed_only busy 4 8
  ∧ 4 ∉ calls (Notify fst false log_OnNotify (7, 10) busy).2.
Proof.
  assert (Honly : subscribed_only busy 4 8).
  { split; [compute_done|]. intros ty' Hty'. unfold subscribers.
    rewrite busy_registry. rewrite lookup_insert_ne by done.
    destruct (decide (ty' = 7)) as [-> | Hne].
    - compute_done.
    - rewrite lookup_singleton_ne by done. apply not_elem_of_nil. }
  split; [exact Honly|].
  apply (Notify_other_category fst false log_OnNotify 7 8 (7, 10) 4 busy);
    [intros o e s'; reflexivity | lia | reflexivity | exact Honly].
Defined.

(** C5 on the concrete process: handle 9 was never attached. *)
Lemma Detach_nothing_to_remove_busy :
  registry_ok (myObservers busy)
  ∧ (9 ∉ subscribers busy 7)
  ∧ Detach (Event := Ev) true 7 9 busy = (busy, [Printf CouldNotDetach]).
Proof.
  split; [compute_done|]. split; [compute_done|].
  apply (Detach_nothing_to_remove (Event := Ev) true 7 9 busy); compute_done.
Defined.

(** C6 on the concrete process: nobody listens to category 9. *)
Lemma Notify_no_subscriber_busy :
  subscribers busy 9 = []
  ∧ Notify fst true log_OnNotify (9, 0) busy = (busy, []).
Proof.
  split; [reflexivity|].
  apply (Notify_no_subscriber fst true log_OnNotify (9, 0) busy). reflexivity.
Defined.

(** C6, where the wording of the specification fails: in a debug build,
    Notify before any Attach is a call without subscribers, and it is not
    silent, it prints the diagnostic of lines 136-138. *)
Lemma Notify_nullptr_debug_prints :
  subscribers fresh 7 = []
  ∧ Notify fst true log_OnNotify (7, 10) fresh
      = (fresh, [Printf NullptrInNotify])
  ∧ printed (Notify fst true log_OnNotify (7, 10) fresh).2 ≠ [].
Proof. split; [reflexivity|]. split; [reflexivity | discriminate]. Qed.

(** C7 on the concrete process: the logging callbacks never touch the
    registry. *)
Lemma Notify_keeps_registry_busy :
  myObservers (Notify fst false log_OnNotify (7, 10) busy).1
    = myObservers busy.
Proof.
  apply (Notify_keeps_registry fst false log_OnNotify (7, 10) busy).
  intros o e s'. reflexivity.
Defined.

(** C8 on the concrete process. *)
Lemma reachable_registry_ok_later :
  reachable fst true log_OnNotify later ∧ registry_ok (myObservers later).
Proof.
  assert (Hr : reachable fst true log_OnNotify later).
  { exists []. eexists. reflexivity. }
  split; [exact Hr|].
  apply (reachable_registry_ok fst true log_OnNotify later); [|exact Hr].
  intros o e s' Hs'. exact Hs'.
Defined.

(** C9 on the concrete process: handle 2 leaves, 1 and 3 stay in order. *)
Lemma Detach_keeps_order_busy :
  subscribers busy 7 = [1] ++ 2 :: [3]
  ∧ subscribers (Detach (Event := Ev) false 7 2 busy).1 7 = [1] ++ [3]
  ∧ (Detach (Event := Ev) false 7 2 busy).2 = []
  ∧ calls (Notify fst false log_OnNotify (7, 10)
             (Detach (Event := Ev) false 7 2 busy).1).2 = [1] ++ [3].
Proof.
  split; [reflexivity|].
  destruct (Detach_keeps_order fst false log_OnNotify 7 2 [1] [3] (7, 10) busy)
    as (Hleft & Hquiet & Hcalls); [compute_done | reflexivity | reflexivity |].
  split; [exact Hleft|]. split; [exact Hquiet|].
  apply Hcalls. intros o e s'. reflexivity.
Defined.

(** C10 on the concrete process: category 8 does not see what happens to
    category 7. *)
Lemma Attach_Detach_frame_busy :
  subscribers (Attach (Event := Ev) false 7 4 busy).1 8 = subscribers busy 8
  ∧ subscribers (Detach (Event := Ev) false 7 1 busy).1 8 = subscribers busy 8.
Proof.
  split.
  - apply (Attach_Detach_frame (Event := Ev) false 7 8 4 busy). lia.
  - apply (Attach_Detach_frame (Event := Ev) false 7 8 1 busy). lia.
Defined.

(** A process that detached everything it attached. *)
Definition drained : LogState :=
  (run fst false log_OnNotify
     [OpAttach 7 1; OpAttach 8 2; OpNotify (7, 10); OpDetach 7 1;
      OpDetach 8 2] fresh).1.

(** X1 on the concrete process: category 9 comes and goes. *)
Lemma Detach_Attach_roundtrip_busy :
  (5 ∉ subscribers busy 9)
  ∧ Detach (Event := Ev) false 9 5 (Attach (Event := Ev) false 9 5 busy).1
      = (busy, []).
Proof.
  split; [compute_done|].
  apply (Detach_Attach_roundtrip (Event := Ev) false 9 5 busy); compute_done.
Defined.

(** X2 on the concrete process. *)
Lemma Detach_stops_delivery_busy :
  (2 ∉ subscribers (Detach (Event := Ev) false 7 2 busy).1 7)
  ∧ (2 ∉ calls (Notify fst false log_OnNotify (7, 10)
                  (Detach (Event := Ev) false 7 2 busy).1).2).
Proof.
  destruct (Detach_stops_delivery fst false log_OnNotify 7 2 (7, 10) busy)
    as (Hgone & Hsilent); [compute_done | reflexivity |].
  split; [exact Hgone|]. apply Hsilent. intros o e s'. reflexivity.
Defined.

(** X3 on the concrete process. *)
Lemma Detach_twice_busy :
  (Detach (Event := Ev) false 7 2 (Detach (Event := Ev) false 7 2 busy).1).1
    = (Detach (Event := Ev) false 7 2 busy).1.
Proof.
  apply (Detach_twice (Event := Ev) false 7 2 busy). compute_done.
Defined.

(** X5 on the concrete process: handle 2 listens to category 7, handle 4
    does not. *)
Lemma Notify_once_each_busy :
  deliveries 2 (Notify fst false log_OnNotify (7, 10) busy).2 = 1
  ∧ deliveries 4 (Notify fst false log_OnNotify (7, 10) busy).2 = 0.
Proof.
  split.
  - etrans; [apply (Notify_once_each fst false log_OnNotify 2 (7, 10) busy);
             [intros o e s'; reflexivity | compute_done]
            | vm_compute; reflexivity].
  - etrans; [apply (Notify_once_each fst false log_OnNotify 4 (7, 10) busy);
             [intros o e s'; reflexivity | compute_done]
            | vm_compute; reflexivity].
Defined.

(** X6 on the concrete process: everything was detached, the map is
    gone. *)
Lemma reachable_nullptr_iff_drained :
  reachable fst false log_OnNotify drained
  ∧ (myObservers drained = None ↔ ∀ ty, subscribers drained ty = []).
Proof.
  assert (Hr : reachable fst false log_OnNotify drained).
  { exists []. eexists. reflexivity. }
  split; [exact Hr|].
  apply (reachable_nullptr_iff fst false log_OnNotify drained); [|exact Hr].
  intros o e s' Hs'. exact Hs'.
Defined.

(** X7 on the concrete process. *)
Lemma Attach_Attach_commute_busy :
  (Attach (Event := Ev) false 7 5 (Attach (Event := Ev) false 9 6 busy).1).1
    = (Attach (Event := Ev) false 9 6 (Attach (Event := Ev) false 7 5 busy).1).1.
Proof.
  apply (Attach_Attach_commute (Event := Ev) false 7 9 5 6 busy). lia.
Defined.

(** X8 on the concrete process: with one subscription the map goes, with
    more it stays. *)
Lemma Detach_nullptr_iff_fresh :
  (myObservers
     (Detach (Event := Ev) false 7 1 (Attach (Event := Ev) false 7 1 fresh).1).1
     = None ↔ ({[7 := [1]]} : gmap nat (list nat)) = {[7 := [1]]})
  ∧ (myObservers (Detach (Event := Ev) false 7 1 busy).1 = None
     ↔ <[8 := [4]]> ({[7 := [1; 2; 3]]} : gmap nat (list nat)) = {[7 := [1]]}).
Proof.
  split.
  - apply (Detach_nullptr_iff (Event := Ev) false 7 1
             (Attach (Event := Ev) false 7 1 fresh).1 {[7 := [1]]});
      [compute_done | reflexivity].
  - apply (Detach_nullptr_iff (Event := Ev) false 7 1 busy
             (<[8 := [4]]> {[7 := [1; 2; 3]]}));
      [compute_done | reflexivity].
Defined.

(** X9 on the concrete process. *)
Lemma Notify_after_Attach_busy :
  (5 ∉ subscribers busy 7)
  ∧ calls (Notify fst false log_OnNotify (7, 10)
             (Attach (Event := Ev) false 7 5 busy).1).2 = [1; 2; 3] ++ [5].
Proof.
  split; [compute_done|].
  apply (Notify_after_Attach fst false log_OnNotify 7 5 (7, 10) busy);
    [intros o e s'; reflexivity | compute_done | reflexivity].
Defined.

(** X10 on the concrete process. *)
Lemma Notify_after_Notify_busy :
  calls (Notify fst false log_OnNotify (7, 20)
           (Notify fst false log_OnNotify (7, 10) busy).1).2 = [1; 2; 3].
Proof.
  apply (Notify_after_Notify fst false log_OnNotify (7, 10) (7, 20) busy).
  intros o e s'. reflexivity.
Defined.

(** X11 on the concrete process: handle 1 goes from first to last. *)
Lemma Attach_after_Detach_busy :
  (1 ∈ subscribers busy 7)
  ∧ subscribers
      (Attach (Event := Ev) false 7 1 (Detach (Event := Ev) false 7 1 busy).1).1
      7 = [2; 3] ++ [1].
Proof.
  split; [compute_done|].
  etrans; [apply (Attach_after_Detach (Event := Ev) false 7 1 busy);
           compute_done | vm_compute; reflexivity].
Defined.

(** X12 on the concrete process. *)
Lemma Detach_Detach_commute_busy :
  (Detach (Event := Ev) false 7 1 (Detach (Event := Ev) false 8 4 busy).1).1
    = (Detach (Event := Ev) false 8 4 (Detach (Event := Ev) false 7 1 busy).1).1.
Proof.
  apply (Detach_Detach_commute (Event := Ev) false 7 8 1 4 busy). compute_done.
Defined.

End EventSystem.
